(** * A shallow embedding of kilo.c (the terminal layer of the kilo editor)

    The process is modelled as a state-passing computation that may return,
    request process termination through [exit], or run out of fuel (the
    program's main loop is [while (1)]).  The operating system is part of the
    state: the current terminal attributes, the results the next
    [tcgetattr]/[tcsetattr]/[ioctl] calls return, the bytes standard input
    will deliver, and a trace of every system call the program makes. *)

From Stdlib Require Import ZArith List String Ascii Bool Lia.
Import ListNotations.
Open Scope string_scope.
Open Scope list_scope.
Open Scope Z_scope.

(** ** termios: the terminal attribute structure (glibc/Linux layout) *)

Record termios := mk_termios {
  c_iflag : Z;        (* tcflag_t, 32-bit unsigned *)
  c_oflag : Z;
  c_cflag : Z;
  c_lflag : Z;
  c_line : Z;         (* cc_t *)
  c_cc : list Z;      (* cc_t c_cc[NCCS] *)
  c_ispeed : Z;
  c_ospeed : Z
}.

Definition NCCS : nat := 32.

(** Flag values from <bits/termios.h> (given there in octal). *)
Definition BRKINT : Z := 2.      (* 0000002 *)
Definition INPCK : Z := 16.      (* 0000020 *)
Definition ISTRIP : Z := 32.     (* 0000040 *)
Definition ICRNL : Z := 256.     (* 0000400 *)
Definition IXON : Z := 1024.     (* 0002000 *)
Definition OPOST : Z := 1.       (* 0000001 *)
Definition CS8 : Z := 48.        (* 0000060 *)
Definition ISIG : Z := 1.        (* 0000001 *)
Definition ICANON : Z := 2.      (* 0000002 *)
Definition ECHO : Z := 8.        (* 0000010 *)
Definition IEXTEN : Z := 32768.  (* 0100000 *)
Definition VTIME : nat := 5.
Definition VMIN : nat := 6.

(** [~x] on an int, converted to the 32-bit unsigned [tcflag_t]. *)
Definition u32 (x : Z) : Z := x mod 2 ^ 32.

(** [a[i] = v] on an array, for an index in bounds. *)
Fixpoint array_set (l : list Z) (i : nat) (v : Z) : list Z :=
  match l, i with
  | [], _ => []
  | _ :: t, O => v :: t
  | h :: t, S j => h :: array_set t j v
  end.

Definition zero_termios : termios :=
  mk_termios 0 0 0 0 0 (repeat 0 NCCS) 0 0.

(** ** The process state *)

(** Result of one [read(STDIN_FILENO, &c, 1)]: one byte, zero bytes (the
    VTIME timeout, or end of input), or -1 with an errno. *)
Inductive read_result :=
  | RByte (b : Z)
  | RTimeout
  | RErr (errno : Z).

Definition EAGAIN : Z := 11.

(** Functions registered with [atexit]. Only one is ever registered. *)
Inductive handler := HdisableRawMode.

Inductive event :=
  | ETcgetattr (ok : bool)
  | ETcsetattr (t : termios) (ok : bool)
  | EAtexit (h : handler)
  | EIoctl
  | ERead (r : read_result)
  | EWrite (fd : Z) (s : string)
  | EPerror (s : string).

Record state := mk_state {
  term : termios;                 (* attributes currently applied to the tty *)
  origin_termios : termios;       (* E.origin_termios *)
  screenrows : Z;                 (* E.screenrows *)
  screencols : Z;                 (* E.screencols *)
  handlers : list handler;        (* atexit list, most recent first *)
  tcgetattr_ok : bool;            (* whether tcgetattr succeeds *)
  tcsetattr_res : list bool;      (* results of the next tcsetattr calls;
                                     once exhausted, calls succeed *)
  winsize : option (Z * Z);       (* ioctl(TIOCGWINSZ): Some (ws_row, ws_col),
                                     or None when it returns -1 *)
  input : list read_result;       (* what the next reads deliver; once
                                     exhausted, every read times out *)
  garbage : Z;                    (* indeterminate initial value of a local
                                     [char c] (a byte) *)
  trace : list event
}.

Definition log (st : state) (e : event) : state :=
  mk_state (term st) (origin_termios st) (screenrows st) (screencols st)
    (handlers st) (tcgetattr_ok st) (tcsetattr_res st) (winsize st)
    (input st) (garbage st) (trace st ++ [e]).

Definition set_term (st : state) (t : termios) : state :=
  mk_state t (origin_termios st) (screenrows st) (screencols st)
    (handlers st) (tcgetattr_ok st) (tcsetattr_res st) (winsize st)
    (input st) (garbage st) (trace st).

Definition set_origin (st : state) (t : termios) : state :=
  mk_state (term st) t (screenrows st) (screencols st)
    (handlers st) (tcgetattr_ok st) (tcsetattr_res st) (winsize st)
    (input st) (garbage st) (trace st).

Definition set_dims (st : state) (rows cols : Z) : state :=
  mk_state (term st) (origin_termios st) rows cols
    (handlers st) (tcgetattr_ok st) (tcsetattr_res st) (winsize st)
    (input st) (garbage st) (trace st).

Definition set_handlers (st : state) (hs : list handler) : state :=
  mk_state (term st) (origin_termios st) (screenrows st) (screencols st)
    hs (tcgetattr_ok st) (tcsetattr_res st) (winsize st)
    (input st) (garbage st) (trace st).

Definition set_tcsetattr_res (st : state) (rs : list bool) : state :=
  mk_state (term st) (origin_termios st) (screenrows st) (screencols st)
    (handlers st) (tcgetattr_ok st) rs (winsize st)
    (input st) (garbage st) (trace st).

Definition set_input (st : state) (inp : list read_result) : state :=
  mk_state (term st) (origin_termios st) (screenrows st) (screencols st)
    (handlers st) (tcgetattr_ok st) (tcsetattr_res st) (winsize st)
    inp (garbage st) (trace st).

(** ** The process monad *)

Inductive outcome (A : Type) :=
  | Ret (a : A)
  | Exit (status : Z)      (* exit(status) was called *)
  | OutOfFuel.
Arguments Ret {A} a.
Arguments Exit {A} status.
Arguments OutOfFuel {A}.

Definition M (A : Type) : Type := state -> outcome A * state.

Definition ret {A} (a : A) : M A := fun st => (Ret a, st).

Definition bind {A B} (m : M A) (f : A -> M B) : M B :=
  fun st =>
    match m st with
    | (Ret a, st') => f a st'
    | (Exit s, st') => (Exit s, st')
    | (OutOfFuel, st') => (OutOfFuel, st')
    end.

Notation "'let!' x := m 'in' k" := (bind m (fun x => k))
  (at level 200, x name, m at level 100, right associativity).
Notation "m ;; k" := (bind m (fun _ => k))
  (at level 100, right associativity).

Definition exit_ {A} (status : Z) : M A := fun st => (Exit status, st).
Definition out_of_fuel {A} : M A := fun st => (OutOfFuel, st).

(** ** System calls *)

Definition write (fd : Z) (s : string) : M unit :=
  fun st => (Ret tt, log st (EWrite fd s)).

Definition perror (s : string) : M unit :=
  fun st => (Ret tt, log st (EPerror s)).

(** [tcgetattr(STDIN_FILENO, &E.origin_termios)]: 0 or -1. *)
Definition tcgetattr_origin : M Z :=
  fun st =>
    if tcgetattr_ok st
    then (Ret 0, log (set_origin st (term st)) (ETcgetattr true))
    else (Ret (-1), log st (ETcgetattr false)).

(** [tcsetattr(STDIN_FILENO, TCSAFLUSH, &t)]: 0 or -1. *)
Definition tcsetattr (t : termios) : M Z :=
  fun st =>
    match tcsetattr_res st with
    | false :: rs => (Ret (-1), log (set_tcsetattr_res st rs) (ETcsetattr t false))
    | true :: rs => (Ret 0, log (set_term (set_tcsetattr_res st rs) t) (ETcsetattr t true))
    | [] => (Ret 0, log (set_term st t) (ETcsetattr t true))
    end.

Definition atexit (h : handler) : M unit :=
  fun st => (Ret tt, log (set_handlers st (h :: handlers st)) (EAtexit h)).

(** [ioctl(STDOUT_FILENO, TIOCGWINSZ, &ws)]: the ioctl's return value and
    [ws] as (ws_row, ws_col) (meaningless when it fails). *)
Definition ioctl_winsz : M (Z * (Z * Z)) :=
  fun st =>
    match winsize st with
    | Some rc => (Ret (0, rc), log st EIoctl)
    | None => (Ret (-1, (0, 0)), log st EIoctl)
    end.

Definition read_stdin : M read_result :=
  fun st =>
    match input st with
    | [] => (Ret RTimeout, log st (ERead RTimeout))
    | r :: rest => (Ret r, log (set_input st rest) (ERead r))
    end.

(** ** terminal *)

Definition ESC : ascii := "027"%char.
Definition clear_2j : string := String ESC "[2j".   (* "\x1b[2j" *)
Definition clear_2J : string := String ESC "[2J".   (* "\x1b[2J" *)
Definition home_H : string := String ESC "[H".      (* "\x1b[H" *)

Definition STDOUT_FILENO : Z := 1.

Definition die {A} (s : string) : M A :=
  write STDOUT_FILENO clear_2j ;;
  write STDOUT_FILENO home_H ;;
  perror s ;;
  exit_ 1.

Definition disableRawMode : M unit :=
  fun st =>
    (let! r := tcsetattr (origin_termios st) in
     if r =? -1 then die "tcsetattr" else ret tt) st.

(** [struct termios raw = E.origin_termios;] followed by the flag updates. *)
Definition make_raw (t : termios) : termios :=
  mk_termios
    (Z.land (c_iflag t) (u32 (Z.lnot (Z.lor BRKINT (Z.lor ICRNL (Z.lor INPCK (Z.lor ISTRIP IXON)))))))
    (Z.land (c_oflag t) (u32 (Z.lnot OPOST)))
    (Z.lor (c_cflag t) CS8)
    (Z.land (c_lflag t) (u32 (Z.lnot (Z.lor ECHO (Z.lor ICANON (Z.lor IEXTEN ISIG))))))
    (c_line t)
    (array_set (array_set (c_cc t) VMIN 0) VTIME 1)
    (c_ispeed t)
    (c_ospeed t).

Definition enableRawMode : M unit :=
  let! r := tcgetattr_origin in
  (if r =? -1 then die "tcgetattr" else ret tt) ;;
  atexit HdisableRawMode ;;
  fun st =>
    (let raw := make_raw (origin_termios st) in
     let! r := tcsetattr raw in
     if r =? -1 then die "tcsetattr" else ret tt) st.

(** [while ((nread = read(STDIN_FILENO, &c, 1)) == 1) { ... } return c;]
    The loop keeps reading while a byte arrives; [c] holds the last byte
    read, or its indeterminate initial value.  [fuel] bounds the iterations
    (each iteration that continues consumes one input byte). *)
Fixpoint readKey_loop (fuel : nat) (c : Z) : M Z :=
  match fuel with
  | O => out_of_fuel
  | S f =>
      let! r := read_stdin in
      let nread := match r with RByte _ => 1 | RTimeout => 0 | RErr _ => -1 end in
      let c' := match r with RByte b => b | _ => c end in
      let errno := match r with RErr e => e | _ => 0 end in
      if nread =? 1 then
        (if (nread =? -1) && negb (errno =? EAGAIN) then die "read" else ret tt) ;;
        readKey_loop f c'
      else ret c'
  end.

Definition editorReadKey : M Z :=
  fun st => readKey_loop (S (List.length (input st))) (garbage st) st.

(** [getWindowSize(&E.screenrows, &E.screencols)] (its only call). *)
Definition getWindowSize : M Z :=
  let! res := ioctl_winsz in
  match res with
  | (rc, (ws_row, ws_col)) =>
      if (rc =? -1) || (ws_col =? 0) then ret (-1)
      else fun st => (Ret 0, set_dims st ws_row ws_col)
  end.

(** ** output *)

Definition CR : ascii := "013"%char.
Definition LF : ascii := "010"%char.
Definition row_marker : string := String "~" (String CR (String LF "")).  (* "~\r\n" *)

Fixpoint drawRows_loop (n : nat) : M unit :=
  match n with
  | O => ret tt
  | S k => write STDOUT_FILENO row_marker ;; drawRows_loop k
  end.

(** [for (y = 0; y < E.screenrows; y++) write(...)] *)
Definition editorDrawRows : M unit :=
  fun st => drawRows_loop (Z.to_nat (screenrows st)) st.

Definition editorRefreshScreen : M unit :=
  write STDOUT_FILENO clear_2j ;;
  write STDOUT_FILENO home_H ;;
  editorDrawRows ;;
  write STDOUT_FILENO home_H.

(** ** input *)

Definition CTRL_KEY (k : Z) : Z := Z.land k 31.

(** The byte stored in a (signed) [char], read back as an int. *)
Definition to_char (b : Z) : Z := if 128 <=? b then b - 256 else b.

Definition processKey (c : Z) : M unit :=
  if to_char c =? CTRL_KEY 113 then
    write STDOUT_FILENO clear_2J ;;
    write STDOUT_FILENO home_H ;;
    exit_ 0
  else ret tt.

Definition editorProcessKeypress : M unit :=
  let! c := editorReadKey in processKey c.

(** ** init *)

Definition initEditor : M unit :=
  let! r := getWindowSize in
  if r =? -1 then die "getWindowSize" else ret tt.

Fixpoint main_loop (fuel : nat) : M unit :=
  match fuel with
  | O => out_of_fuel
  | S f => editorRefreshScreen ;; editorProcessKeypress ;; main_loop f
  end.

Definition main (fuel : nat) : M Z :=
  enableRawMode ;;
  initEditor ;;
  main_loop fuel ;;
  ret 0.

(** ** Process termination

    [exit(status)] (and returning from [main]) runs the [atexit] handlers,
    most recently registered first, each removed from the list before it
    runs.  A handler that itself calls [exit(s)] makes the process end with
    [s] after the remaining handlers ran: this is glibc's behaviour; the C
    standard leaves a second call of [exit] undefined. *)

Definition handler_body (h : handler) : M unit :=
  match h with HdisableRawMode => disableRawMode end.

Fixpoint run_atexit (hs : list handler) (status : Z) (st : state) : Z * state :=
  match hs with
  | [] => (status, st)
  | h :: rest =>
      match handler_body h st with
      | (Exit s, st') => run_atexit rest s st'
      | (_, st') => run_atexit rest status st'
      end
  end.

Inductive process_result :=
  | Terminated (status : Z)
  | Running.

Definition terminate (status : Z) (st : state) : process_result * state :=
  let (s, st') := run_atexit (handlers st) status (set_handlers st []) in
  (Terminated s, st').

Definition run_process (m : M Z) (st : state) : process_result * state :=
  match m st with
  | (Ret code, st') => terminate code st'
  | (Exit s, st') => terminate s st'
  | (OutOfFuel, st') => (Running, st')
  end.

(** ** Observations on traces *)

(** The attributes passed to the last [tcsetattr] call of a trace. *)
Fixpoint last_tcsetattr (l : list event) : option termios :=
  match l with
  | [] => None
  | e :: t =>
      match last_tcsetattr t with
      | Some x => Some x
      | None => match e with ETcsetattr x _ => Some x | _ => None end
      end
  end.

Definition is_read (e : event) : bool :=
  match e with ERead _ => true | _ => false end.

Definition reads (l : list event) : list event := filter is_read l.

Definition not_tcsetattr (e : event) : Prop :=
  match e with ETcsetattr _ _ => False | _ => True end.

(** A computation is [quiet] when it leaves the atexit list and
    [E.origin_termios] alone, only appends to the trace, and makes no
    [tcsetattr] call. *)
Definition quiet {A} (m : M A) : Prop :=
  forall st,
    let st' := snd (m st) in
    handlers st' = handlers st /\
    origin_termios st' = origin_termios st /\
    exists ev, trace st' = trace st ++ ev /\ Forall not_tcsetattr ev.

(** * Lemmas *)

Lemma bind_Ret {A B} (m : M A) (f : A -> M B) st a st1 :
  m st = (Ret a, st1) -> bind m f st = f a st1.
Proof. intros H. unfold bind. rewrite H. reflexivity. Qed.

Lemma last_tcsetattr_app l1 l2 :
  last_tcsetattr (l1 ++ l2) =
  match last_tcsetattr l2 with Some x => Some x | None => last_tcsetattr l1 end.
Proof.
  induction l1 as [|e t IH]; simpl.
  - destruct (last_tcsetattr l2); reflexivity.
  - rewrite IH. destruct (last_tcsetattr l2); reflexivity.
Qed.

Lemma last_tcsetattr_quiet ev :
  Forall not_tcsetattr ev -> last_tcsetattr ev = None.
Proof.
  induction 1 as [|e t He _ IH]; simpl; [reflexivity|].
  rewrite IH. destruct e; simpl in *; tauto.
Qed.

Section Quiet.

Lemma quiet_ret {A} (a : A) : quiet (ret a).
Proof. intros st. simpl. repeat split. exists []. rewrite app_nil_r. auto. Qed.

Lemma quiet_exit {A} s : quiet (@exit_ A s).
Proof. intros st. simpl. repeat split. exists []. rewrite app_nil_r. auto. Qed.

Lemma quiet_out_of_fuel {A} : quiet (@out_of_fuel A).
Proof. intros st. simpl. repeat split. exists []. rewrite app_nil_r. auto. Qed.

Lemma quiet_log_step {A} (f : state -> outcome A) (e : event) :
  not_tcsetattr e -> quiet (fun st => (f st, log st e)).
Proof. intros He st. simpl. repeat split. exists [e]. split; auto. Qed.

Lemma quiet_write fd s : quiet (write fd s).
Proof. apply (quiet_log_step (fun _ => Ret tt)). exact I. Qed.

Lemma quiet_perror s : quiet (perror s).
Proof. apply (quiet_log_step (fun _ => Ret tt)). exact I. Qed.

Lemma quiet_ioctl : quiet ioctl_winsz.
Proof.
  intros st. unfold ioctl_winsz. destruct (winsize st); simpl;
    repeat split; exists [EIoctl]; split; repeat constructor.
Qed.

Lemma quiet_read : quiet read_stdin.
Proof.
  intros st. unfold read_stdin. destruct (input st) eqn:E; simpl;
    repeat split; eexists; (split; [reflexivity|repeat constructor]).
Qed.

Lemma quiet_bind {A B} (m : M A) (f : A -> M B) :
  quiet m -> (forall a, quiet (f a)) -> quiet (bind m f).
Proof.
  intros Hm Hf st. specialize (Hm st). unfold bind.
  destruct (m st) as [[a|s|] st1] eqn:E; simpl in *;
    [|exact Hm|exact Hm].
  destruct Hm as (H1 & H2 & ev1 & H3 & H4).
  destruct (Hf a st1) as (H5 & H6 & ev2 & H7 & H8).
  repeat split; [congruence|congruence|].
  exists (ev1 ++ ev2). rewrite H7, H3, app_assoc. split; [reflexivity|].
  apply Forall_app; auto.
Qed.

Lemma quiet_at {A} (g : state -> M A) :
  (forall x, quiet (g x)) -> quiet (fun st => g st st).
Proof. intros H st. exact (H st st). Qed.

End Quiet.

Create HintDb quiet_db.
#[local] Hint Resolve quiet_ret quiet_exit quiet_out_of_fuel quiet_write
  quiet_perror quiet_ioctl quiet_read : quiet_db.

Ltac quiet_step :=
  match goal with
  | |- quiet (bind _ _) => apply quiet_bind; [|intro]
  | |- quiet (fun st => _ st st) => apply quiet_at; intro
  | |- quiet (if ?b then _ else _) => destruct b
  | |- quiet (match ?x with _ => _ end) => destruct x
  | |- _ => solve [eauto with quiet_db]
  end.

Lemma quiet_die {A} s : quiet (@die A s).
Proof. unfold die. repeat quiet_step. Qed.
#[local] Hint Resolve quiet_die : quiet_db.

Lemma quiet_readKey_loop fuel c : quiet (readKey_loop fuel c).
Proof.
  revert c. induction fuel as [|f IH]; intro c; simpl; repeat quiet_step.
Qed.
#[local] Hint Resolve quiet_readKey_loop : quiet_db.

Lemma quiet_editorReadKey : quiet editorReadKey.
Proof. intros st. apply quiet_readKey_loop. Qed.

Lemma quiet_getWindowSize : quiet getWindowSize.
Proof.
  unfold getWindowSize. repeat quiet_step.
  intros st. simpl. repeat split. exists []. rewrite app_nil_r. auto.
Qed.

Lemma quiet_drawRows_loop n : quiet (drawRows_loop n).
Proof. induction n; simpl; repeat quiet_step. Qed.

Lemma quiet_editorRefreshScreen : quiet editorRefreshScreen.
Proof.
  unfold editorRefreshScreen, editorDrawRows.
  repeat quiet_step. intros st. apply quiet_drawRows_loop.
Qed.

#[local] Hint Resolve quiet_editorReadKey quiet_getWindowSize
  quiet_editorRefreshScreen : quiet_db.

Lemma quiet_main_loop fuel : quiet (main_loop fuel).
Proof.
  induction fuel; simpl; unfold editorProcessKeypress, processKey;
    repeat quiet_step.
Qed.

Lemma quiet_initEditor : quiet initEditor.
Proof. unfold initEditor. repeat quiet_step. Qed.

(** [disableRawMode] makes exactly one [tcsetattr] call, with
    [E.origin_termios], and any later event of it is not a [tcsetattr]. *)
Lemma disableRawMode_trace st :
  let st' := snd (disableRawMode st) in
  origin_termios st' = origin_termios st /\
  exists ok ev, trace st' = trace st ++ ETcsetattr (origin_termios st) ok :: ev
                /\ Forall not_tcsetattr ev.
Proof.
  unfold disableRawMode, tcsetattr, bind.
  destruct (tcsetattr_res st) as [|[|] rs]; simpl;
    (split; [reflexivity|]); do 2 eexists;
    (split; [repeat rewrite <- app_assoc; reflexivity|]); repeat constructor.
Qed.

Lemma run_atexit_restores hs status st :
  hs <> [] ->
  last_tcsetattr (trace (snd (run_atexit hs status st))) = Some (origin_termios st).
Proof.
  revert status st. induction hs as [|h rest IH]; intros status st Hne;
    [congruence|].
  destruct h. simpl.
  pose proof (disableRawMode_trace st) as (Ho & ok & ev & Ht & Hev).
  destruct (disableRawMode st) as [r st1] eqn:E. simpl in *.
  destruct rest as [|h' rest'].
  - destruct r; simpl; rewrite Ht, last_tcsetattr_app;
      simpl; rewrite (last_tcsetattr_quiet ev Hev); reflexivity.
  - destruct r; rewrite IH by discriminate; congruence.
Qed.

Lemma enableRawMode_ok st st1 :
  enableRawMode st = (Ret tt, st1) ->
  handlers st1 = HdisableRawMode :: handlers st /\
  origin_termios st1 = term st /\
  term st1 = make_raw (term st).
Proof.
  unfold enableRawMode, tcgetattr_origin, bind, atexit, tcsetattr, die,
    write, perror, exit_, ret.
  destruct (tcgetattr_ok st); simpl; [|discriminate].
  destruct (tcsetattr_res st) as [|[|] rs]; simpl; intros H;
    inversion H; subst; simpl; auto.
Qed.

(** The state [die("getWindowSize")] leaves after a failed window query. *)
Definition geometry_fail_state (st : state) : state :=
  log (log (log (log st EIoctl) (EWrite STDOUT_FILENO clear_2j))
         (EWrite STDOUT_FILENO home_H)) (EPerror "getWindowSize").

Lemma initEditor_eq st :
  initEditor st =
  match winsize st with
  | Some (row, col) =>
      if col =? 0 then (Exit 1, geometry_fail_state st)
      else (Ret tt, set_dims (log st EIoctl) row col)
  | None => (Exit 1, geometry_fail_state st)
  end.
Proof.
  unfold initEditor, getWindowSize, ioctl_winsz, bind, die, write, perror,
    exit_, ret, geometry_fail_state.
  destruct (winsize st) as [[row col]|]; simpl; [|reflexivity].
  destruct (col =? 0); reflexivity.
Qed.

Lemma disableRawMode_outcome st :
  fst (disableRawMode st) = Ret tt \/ fst (disableRawMode st) = Exit 1.
Proof.
  unfold disableRawMode, tcsetattr, bind, die, write, perror, exit_, ret.
  destruct (tcsetattr_res st) as [|[|] rs]; simpl; auto.
Qed.

Lemma run_atexit_status hs status st :
  fst (run_atexit hs status st) = status \/ fst (run_atexit hs status st) = 1.
Proof.
  revert status st. induction hs as [|h rest IH]; intros status st; simpl; [auto|].
  destruct h. simpl.
  destruct (disableRawMode_outcome st) as [Hd|Hd];
    destruct (disableRawMode st) as [r st1]; simpl in Hd; subst r.
  - apply IH.
  - destruct (IH 1 st1); auto.
Qed.

(** The restore at exit, for a process that has entered raw mode and then ran
    a quiet computation [m]. *)
Lemma restore_at_exit (m : M Z) st st1 s st' :
  enableRawMode st = (Ret tt, st1) ->
  quiet m ->
  run_process (fun x => m x) st1 = (Terminated s, st') ->
  last_tcsetattr (trace st') = Some (term st).
Proof.
  intros E1 Hq Hrun.
  destruct (enableRawMode_ok st st1 E1) as (Hh & Ho & _).
  destruct (Hq st1) as (Hh2 & Ho2 & _).
  unfold run_process in Hrun.
  destruct (m st1) as [r2 st2] eqn:E2. simpl in Hh2, Ho2.
  assert (Hne : handlers st2 <> []) by congruence.
  destruct r2 as [code|code|]; [| |discriminate];
    unfold terminate in Hrun;
    pose proof (run_atexit_restores (handlers st2) code (set_handlers st2 []) Hne) as Hr;
    destruct (run_atexit (handlers st2) code (set_handlers st2 [])) as [s3 st3];
    inversion Hrun; subst; simpl in Hr; congruence.
Qed.

Lemma quiet_main_rest fuel : quiet (initEditor ;; main_loop fuel ;; ret 0).
Proof.
  apply quiet_bind; [apply quiet_initEditor|intros _].
  apply quiet_bind; [apply quiet_main_loop|intros _]. apply quiet_ret.
Qed.

Lemma main_after_enable fuel st st1 :
  enableRawMode st = (Ret tt, st1) ->
  main fuel st = (initEditor ;; main_loop fuel ;; ret 0) st1.
Proof.
  intros E1. unfold main.
  exact (bind_Ret enableRawMode (fun _ => initEditor ;; main_loop fuel ;; ret 0) st tt st1 E1).
Qed.

Lemma drawRows_loop_eq n st :
  fst (drawRows_loop n st) = Ret tt /\
  trace (snd (drawRows_loop n st)) = trace st ++ repeat (EWrite STDOUT_FILENO row_marker) n /\
  screenrows (snd (drawRows_loop n st)) = screenrows st.
Proof.
  revert st. induction n as [|k IH]; intros st; simpl.
  - rewrite app_nil_r. auto.
  - unfold bind, write. simpl. destruct (IH (log st (EWrite STDOUT_FILENO row_marker))) as (H1 & H2 & H3).
    rewrite H1, H2, H3. simpl. rewrite <- app_assoc. auto.
Qed.

(** ** The earliest snapshot (src/unnamed/part_000)

    Same system-call layer; raw mode only clears ECHO, every error is
    ignored, and [main] is [while (read(STDIN_FILENO, &c, 1) == 1 && c != 'q');
    return 0;].  The terminal stays canonical, so a read that returns no byte
    (the model's [RTimeout], also once input is exhausted) is end of input. *)
Module Snapshot0.

Definition disableRawMode : M unit :=
  fun st => (tcsetattr (origin_termios st) ;; ret tt) st.

Definition make_raw (t : termios) : termios :=
  mk_termios (c_iflag t) (c_oflag t) (c_cflag t)
    (Z.land (c_lflag t) (u32 (Z.lnot ECHO)))
    (c_line t) (c_cc t) (c_ispeed t) (c_ospeed t).

Definition enableRawMode : M unit :=
  tcgetattr_origin ;;
  atexit HdisableRawMode ;;
  fun st => (tcsetattr (make_raw (origin_termios st)) ;; ret tt) st.

Fixpoint read_loop (fuel : nat) : M unit :=
  match fuel with
  | O => out_of_fuel
  | S f =>
      let! r := read_stdin in
      match r with
      | RByte b => if negb (to_char b =? 113) then read_loop f else ret tt
      | _ => ret tt
      end
  end.

Definition main : M Z :=
  enableRawMode ;;
  (fun st => read_loop (S (List.length (input st))) st) ;;
  ret 0.

Definition handler_body (h : handler) : M unit :=
  match h with HdisableRawMode => disableRawMode end.

Fixpoint run_atexit (hs : list handler) (status : Z) (st : state) : Z * state :=
  match hs with
  | [] => (status, st)
  | h :: rest =>
      match handler_body h st with
      | (Exit s, st') => run_atexit rest s st'
      | (_, st') => run_atexit rest status st'
      end
  end.

Definition run_process (m : M Z) (st : state) : process_result * state :=
  match m st with
  | (Ret code, st') =>
      let (s, st'') := run_atexit (handlers st') code (set_handlers st' []) in
      (Terminated s, st'')
  | (Exit s, st') =>
      let (s', st'') := run_atexit (handlers st') s (set_handlers st' []) in
      (Terminated s', st'')
  | (OutOfFuel, st') => (Running, st')
  end.

(** The reads the claim describes: up to and including the first read that
    returns 'q' or no byte at all. *)
Fixpoint reads_until_stop (l : list read_result) : list read_result :=
  match l with
  | [] => [RTimeout]
  | RByte b :: t => if b =? 113 then [RByte b] else RByte b :: reads_until_stop t
  | r :: _ => [r]
  end.

Definition byte_ok (r : read_result) : Prop :=
  match r with RByte b => 0 <= b < 256 | _ => True end.

End Snapshot0.

(** A read that delivers no byte (timeout, end of input, error). *)
Definition not_byte (r : read_result) : Prop :=
  match r with RByte _ => False | _ => True end.

(** The state with [l] appended to its trace. *)
Definition add_trace (st : state) (l : list event) : state :=
  mk_state (term st) (origin_termios st) (screenrows st) (screencols st)
    (handlers st) (tcgetattr_ok st) (tcsetattr_res st) (winsize st)
    (input st) (garbage st) (trace st ++ l).

(** A computation that leaves the state component [p] alone. *)
Definition keeps {X A} (p : state -> X) (m : M A) : Prop :=
  forall st, p (snd (m st)) = p st.

(** * Sample inputs *)

(** A typical cooked-mode Linux tty: ICRNL|IXON, OPOST|ONLCR,
    B38400|CS8|CREAD|HUPCL, ISIG|ICANON|ECHO|ECHOE|ECHOK|ECHOCTL|ECHOKE|IEXTEN. *)
Definition cooked_tty : termios :=
  mk_termios 1280 5 191 35387 0
    ([3; 28; 127; 21; 4; 0; 1; 0; 17; 19; 26; 0; 18; 15; 23; 22]
       ++ repeat 0 16) 15 15.

(** A fresh process on that tty: window [ws], tcsetattr results [ts],
    standard input [inp]. *)
Definition fresh (ws : option (Z * Z)) (ts : list bool) (inp : list read_result) : state :=
  mk_state cooked_tty zero_termios 0 0 [] true ts ws inp 0 [].

(** * Frame lemmas: state components a computation leaves alone *)

Create HintDb keeps_db.

Section Keeps.

Variable X : Type.
Variable p : state -> X.
Hypothesis p_log : forall st e, p (log st e) = p st.
Hypothesis p_input : forall st l, p (set_input st l) = p st.
Hypothesis p_dims : forall st r c, p (set_dims st r c) = p st.

Lemma keeps_ret {A} (a : A) : keeps p (ret a).
Proof. intros st. reflexivity. Qed.

Lemma keeps_exit {A} s : keeps p (@exit_ A s).
Proof. intros st. reflexivity. Qed.

Lemma keeps_out_of_fuel {A} : keeps p (@out_of_fuel A).
Proof. intros st. reflexivity. Qed.

Lemma keeps_write fd s : keeps p (write fd s).
Proof. intros st. apply p_log. Qed.

Lemma keeps_perror s : keeps p (perror s).
Proof. intros st. apply p_log. Qed.

Lemma keeps_ioctl : keeps p ioctl_winsz.
Proof. intros st. unfold ioctl_winsz. destruct (winsize st); apply p_log. Qed.

Lemma keeps_read : keeps p read_stdin.
Proof.
  intros st. unfold read_stdin. destruct (input st); simpl; rewrite p_log;
    [reflexivity|apply p_input].
Qed.

Lemma keeps_set_dims {A} (a : A) r c : keeps p (fun st => (Ret a, set_dims st r c)).
Proof. intros st. apply p_dims. Qed.

Lemma keeps_bind {A B} (m : M A) (f : A -> M B) :
  keeps p m -> (forall a, keeps p (f a)) -> keeps p (bind m f).
Proof.
  intros Hm Hf st. specialize (Hm st). unfold bind.
  destruct (m st) as [[a|s|] st1]; simpl in *; [|exact Hm|exact Hm].
  rewrite Hf. exact Hm.
Qed.

Lemma keeps_at {A} (g : state -> M A) :
  (forall x, keeps p (g x)) -> keeps p (fun st => g st st).
Proof. intros H st. exact (H st st). Qed.

#[local] Hint Resolve keeps_ret keeps_exit keeps_out_of_fuel keeps_write
  keeps_perror keeps_ioctl keeps_read keeps_set_dims : keeps_db.

Ltac keeps_step :=
  match goal with
  | |- keeps _ (bind _ _) => apply keeps_bind; [|intro]
  | |- keeps _ (fun st => _ st st) => apply keeps_at; intro
  | |- keeps _ (if ?b then _ else _) => destruct b
  | |- keeps _ (match ?x with _ => _ end) => destruct x
  | |- _ => solve [eauto with keeps_db]
  end.

Lemma keeps_die {A} s : keeps p (@die A s).
Proof. unfold die. repeat keeps_step. Qed.
#[local] Hint Resolve keeps_die : keeps_db.

Lemma keeps_readKey_loop fuel c : keeps p (readKey_loop fuel c).
Proof.
  revert c. induction fuel as [|f IH]; intro c; simpl; repeat keeps_step.
Qed.

Lemma keeps_editorReadKey : keeps p editorReadKey.
Proof. intros st. apply keeps_readKey_loop. Qed.

Lemma keeps_drawRows_loop n : keeps p (drawRows_loop n).
Proof. induction n; simpl; repeat keeps_step. Qed.

Lemma keeps_editorRefreshScreen : keeps p editorRefreshScreen.
Proof.
  unfold editorRefreshScreen, editorDrawRows.
  repeat keeps_step. intros st. apply keeps_drawRows_loop.
Qed.

#[local] Hint Resolve keeps_editorReadKey keeps_editorRefreshScreen : keeps_db.

Lemma keeps_main_loop fuel : keeps p (main_loop fuel).
Proof.
  induction fuel; simpl; unfold editorProcessKeypress, processKey;
    repeat keeps_step.
Qed.

Lemma keeps_initEditor : keeps p initEditor.
Proof. unfold initEditor, getWindowSize. repeat keeps_step. Qed.

Lemma keeps_main_rest fuel : keeps p (initEditor ;; main_loop fuel ;; ret 0).
Proof.
  apply keeps_bind; [apply keeps_initEditor|intros _].
  apply keeps_bind; [apply keeps_main_loop|intros _]. apply keeps_ret.
Qed.

End Keeps.

Lemma keeps_term_main_rest fuel : keeps term (initEditor ;; main_loop fuel ;; ret 0).
Proof. apply keeps_main_rest; reflexivity. Qed.

Lemma keeps_res_main_rest fuel : keeps tcsetattr_res (initEditor ;; main_loop fuel ;; ret 0).
Proof. apply keeps_main_rest; reflexivity. Qed.

(** * Claims *)

(** C1: once raw mode has been entered, every way the process terminates
    (returning from main, exit(0) for the quit key, exit(1) from die) first
    runs the atexit-registered restore: the last tcsetattr call the process
    makes reapplies the attributes captured before raw mode was entered. *)
Theorem restore_runs_on_every_exit fuel st s st' :
  fst (enableRawMode st) = Ret tt ->
  run_process (main fuel) st = (Terminated s, st') ->
  last_tcsetattr (trace st') = Some (term st).
Proof.
  intros Hen Hrun.
  destruct (enableRawMode st) as [r1 st1] eqn:E1. simpl in Hen. subst r1.
  unfold run_process in Hrun. rewrite (main_after_enable fuel st st1 E1) in Hrun.
  apply (restore_at_exit _ st st1 s st' E1 (quiet_main_rest fuel)).
  exact Hrun.
Qed.

Lemma restore_runs_on_every_exit_witness :
  fst (enableRawMode (fresh (Some (24, 80)) [] [RByte 17])) = Ret tt /\
  last_tcsetattr (trace (snd (run_process (main 2) (fresh (Some (24, 80)) [] [RByte 17]))))
    = Some cooked_tty.
Proof.
  split; [vm_compute; reflexivity|].
  apply (restore_runs_on_every_exit 2 (fresh (Some (24, 80)) [] [RByte 17]) 0);
    vm_compute; reflexivity.
Defined.

(** C2: when enableRawMode and then disableRawMode both complete, the
    attributes captured by enableRawMode are the ones the terminal had on
    entry, and the terminal ends with exactly those attributes. *)
Theorem enable_disable_roundtrip st st1 st2 :
  enableRawMode st = (Ret tt, st1) ->
  disableRawMode st1 = (Ret tt, st2) ->
  origin_termios st1 = term st /\ term st2 = term st.
Proof.
  intros H1 H2.
  destruct (enableRawMode_ok st st1 H1) as (_ & Ho & _).
  split; [exact Ho|].
  revert H2. unfold disableRawMode, tcsetattr, bind, die, write, perror, exit_, ret.
  destruct (tcsetattr_res st1) as [|[|] rs]; simpl; intros H2;
    inversion H2; subst; simpl; congruence.
Qed.

Lemma enable_disable_roundtrip_witness :
  origin_termios (snd (enableRawMode (fresh None [] []))) = cooked_tty /\
  term (snd (disableRawMode (snd (enableRawMode (fresh None [] []))))) = cooked_tty.
Proof.
  apply (enable_disable_roundtrip (fresh None [] [])); vm_compute; reflexivity.
Defined.

(** C3 (as stated, refuted): with a window of 24 rows and 0 columns, startup
    fails with exit(1), but at that moment the terminal already carries the
    raw attributes, not the original ones: main calls enableRawMode before
    initEditor queries the geometry. *)
Lemma zero_columns_failure_is_raw :
  fst (main 1 (fresh (Some (24, 0)) [] [])) = Exit 1 /\
  term (snd (main 1 (fresh (Some (24, 0)) [] []))) = make_raw cooked_tty /\
  make_raw cooked_tty <> cooked_tty.
Proof. vm_compute. split; [reflexivity|split; [reflexivity|discriminate]]. Qed.

(** C3 (amended): when the window query reports 0 columns, on a process that
    has entered raw mode, startup fails through die("getWindowSize") while the
    terminal holds the raw attributes derived from the original; the process
    then terminates with status 1, and its last tcsetattr call (the atexit
    restore) reapplies the original attributes. *)
Theorem zero_columns_fails_after_raw_mode fuel st row :
  winsize st = Some (row, 0) ->
  fst (enableRawMode st) = Ret tt ->
  (exists st1, main fuel st = (Exit 1, st1) /\
               term st1 = make_raw (term st) /\
               In (EPerror "getWindowSize") (trace st1)) /\
  (exists st2, run_process (main fuel) st = (Terminated 1, st2) /\
               last_tcsetattr (trace st2) = Some (term st)).
Proof.
  intros Hw Hen.
  destruct (enableRawMode st) as [r1 st1] eqn:E1. simpl in Hen. subst r1.
  destruct (enableRawMode_ok st st1 E1) as (Hh & Ho & Ht).
  assert (Hw1 : winsize st1 = winsize st).
  { revert E1. unfold enableRawMode, tcgetattr_origin, bind, atexit, tcsetattr,
      die, write, perror, exit_, ret.
    destruct (tcgetattr_ok st); simpl; [|discriminate].
    destruct (tcsetattr_res st) as [|[|] rs]; simpl; intros H;
      inversion H; reflexivity. }
  assert (Hm : main fuel st = (Exit 1, geometry_fail_state st1)).
  { rewrite (main_after_enable fuel st st1 E1).
    unfold bind at 1. rewrite initEditor_eq, Hw1, Hw. reflexivity. }
  split.
  - exists (geometry_fail_state st1). split; [exact Hm|]. split.
    + exact Ht.
    + unfold geometry_fail_state. simpl. apply in_or_app. right. left. reflexivity.
  - unfold run_process. rewrite Hm. unfold terminate.
    pose proof (run_atexit_status (handlers (geometry_fail_state st1)) 1
                  (set_handlers (geometry_fail_state st1) [])) as Hs.
    pose proof (run_atexit_restores (handlers (geometry_fail_state st1)) 1
                  (set_handlers (geometry_fail_state st1) [])) as Hr.
    destruct (run_atexit (handlers (geometry_fail_state st1)) 1
                (set_handlers (geometry_fail_state st1) [])) as [s2 st2].
    simpl in Hs, Hr. exists st2. split.
    + destruct Hs; subst; reflexivity.
    + rewrite Hr; [congruence|]. rewrite Hh. discriminate.
Qed.

Lemma zero_columns_fails_after_raw_mode_witness :
  winsize (fresh (Some (24, 0)) [] []) = Some (24, 0) /\
  fst (enableRawMode (fresh (Some (24, 0)) [] [])) = Ret tt /\
  ((exists st1, main 3 (fresh (Some (24, 0)) [] []) = (Exit 1, st1) /\
                term st1 = make_raw cooked_tty /\
                In (EPerror "getWindowSize") (trace st1)) /\
   (exists st2, run_process (main 3) (fresh (Some (24, 0)) [] []) = (Terminated 1, st2) /\
                last_tcsetattr (trace st2) = Some cooked_tty)).
Proof.
  split; [reflexivity|]. split; [vm_compute; reflexivity|].
  apply (zero_columns_fails_after_raw_mode 3 (fresh (Some (24, 0)) [] []) 24);
    vm_compute; reflexivity.
Defined.

(** C4 (code bug): editorReadKey loops while read returns one byte, so a single
    input step reads until a read returns no byte; it returns the last byte
    read before the timeout.  Evaluated at three inputs: 'a' then a timeout
    takes two reads; Ctrl-Q, 'a', timeout takes three reads and the Ctrl-Q
    never reaches the dispatch; a read error (-1, EIO) is not reported and
    the indeterminate [c] is returned. *)
Theorem editorReadKey_inverted_loop :
  (fst (editorReadKey (fresh None [] [RByte 97; RTimeout])) = Ret 97 /\
   reads (trace (snd (editorReadKey (fresh None [] [RByte 97; RTimeout]))))
     = [ERead (RByte 97); ERead RTimeout]) /\
  (fst (editorProcessKeypress (fresh None [] [RByte 17; RByte 97; RTimeout])) = Ret tt /\
   reads (trace (snd (editorProcessKeypress (fresh None [] [RByte 17; RByte 97; RTimeout]))))
     = [ERead (RByte 17); ERead (RByte 97); ERead RTimeout]) /\
  fst (editorReadKey (fresh None [] [RErr 5])) = Ret (garbage (fresh None [] [RErr 5])).
Proof. vm_compute. repeat split. Qed.

(** C5 (code bug): one render cycle writes "\x1b[2j" (lowercase j, not the
    erase-display sequence ESC[2J that the quit path writes), then ESC[H,
    then one "~\r\n" per screen row, then ESC[H. *)
Theorem editorRefreshScreen_output st :
  fst (editorRefreshScreen st) = Ret tt /\
  trace (snd (editorRefreshScreen st)) =
    trace st ++ [EWrite STDOUT_FILENO clear_2j; EWrite STDOUT_FILENO home_H]
      ++ repeat (EWrite STDOUT_FILENO row_marker) (Z.to_nat (screenrows st))
      ++ [EWrite STDOUT_FILENO home_H] /\
  clear_2j <> clear_2J.
Proof.
  cbv beta iota delta [editorRefreshScreen editorDrawRows bind write].
  set (st1 := log (log st (EWrite STDOUT_FILENO clear_2j)) (EWrite STDOUT_FILENO home_H)).
  assert (Hr : screenrows st1 = screenrows st) by reflexivity.
  destruct (drawRows_loop_eq (Z.to_nat (screenrows st1)) st1) as (H1 & H2 & _).
  destruct (drawRows_loop (Z.to_nat (screenrows st1)) st1) as [r st2]. simpl in H1, H2.
  subst r. simpl. rewrite H2. try rewrite Hr. subst st1. simpl.
  split; [reflexivity|]. split.
  - repeat rewrite <- app_assoc. reflexivity.
  - unfold clear_2j, clear_2J. discriminate.
Qed.

(** C6: the key returned by editorReadKey (a byte 0x00..0xFF stored in a
    signed char) is compared with CTRL_KEY('q') = 0x11: for 0x11 the process
    writes ESC[2J and ESC[H and calls exit(0); for every other byte the step
    returns with the state editorReadKey left, so the loop goes on. *)
Theorem processKeypress_dispatch st c st1 :
  editorReadKey st = (Ret c, st1) ->
  0 <= c < 256 ->
  editorProcessKeypress st =
    if c =? 17
    then (Exit 0, log (log st1 (EWrite STDOUT_FILENO clear_2J)) (EWrite STDOUT_FILENO home_H))
    else (Ret tt, st1).
Proof.
  intros Hk Hc. unfold editorProcessKeypress.
  rewrite (bind_Ret editorReadKey (fun c => processKey c) st c st1 Hk).
  unfold processKey, to_char.
  replace (CTRL_KEY 113) with 17 by reflexivity.
  destruct (Z.leb_spec 128 c).
  - replace (c - 256 =? 17) with false by (symmetry; apply Z.eqb_neq; lia).
    replace (c =? 17) with false by (symmetry; apply Z.eqb_neq; lia).
    reflexivity.
  - destruct (c =? 17); reflexivity.
Qed.

Lemma processKeypress_dispatch_witness :
  fst (editorReadKey (fresh None [] [RByte 17])) = Ret 17 /\
  editorProcessKeypress (fresh None [] [RByte 17]) =
    (Exit 0, log (log (snd (editorReadKey (fresh None [] [RByte 17])))
                    (EWrite STDOUT_FILENO clear_2J)) (EWrite STDOUT_FILENO home_H)).
Proof.
  split; [vm_compute; reflexivity|].
  apply (processKeypress_dispatch (fresh None [] [RByte 17]) 17); [vm_compute; reflexivity|lia].
Defined.

Lemma nth_array_set_same l i v d :
  (i < List.length l)%nat -> nth i (array_set l i v) d = v.
Proof.
  revert i. induction l as [|h t IH]; intros i Hi; simpl in *; [lia|].
  destruct i; simpl; [reflexivity|]. apply IH. lia.
Qed.

Lemma nth_array_set_other l i j v d :
  i <> j -> nth j (array_set l i v) d = nth j l d.
Proof.
  revert i j. induction l as [|h t IH]; intros i j Hij; simpl; [destruct j; reflexivity|].
  destruct i, j; simpl; try reflexivity; [congruence|]. apply IH. congruence.
Qed.

Lemma length_array_set l i v : List.length (array_set l i v) = List.length l.
Proof.
  revert i. induction l as [|h t IH]; intros i; simpl; [reflexivity|].
  destruct i; simpl; [reflexivity|]. rewrite IH. reflexivity.
Qed.

Lemma testbit_land_u32_lnot x mask n :
  0 <= x < 2 ^ 32 -> 0 <= n ->
  Z.testbit (Z.land x (u32 (Z.lnot mask))) n = Z.testbit x n && negb (Z.testbit mask n).
Proof.
  intros Hx Hn. unfold u32. rewrite Z.land_spec.
  destruct (Z.ltb_spec n 32).
  - rewrite Z.mod_pow2_bits_low by lia. rewrite Z.lnot_spec by lia. reflexivity.
  - rewrite (Z.mod_pow2_bits_high (Z.lnot mask)) by lia.
    rewrite <- (Z.mod_small x (2 ^ 32)) by lia.
    rewrite Z.mod_pow2_bits_high by lia. reflexivity.
Qed.

(** C7: the raw attributes keep every bit of the original flags except that
    BRKINT, ICRNL, INPCK, ISTRIP, IXON (input), OPOST (output) and ECHO,
    ICANON, IEXTEN, ISIG (local) are cleared and CS8 is set; c_cc[VMIN]
    becomes 0 and c_cc[VTIME] becomes 1 (tenths of a second), every other
    control character, c_line and both speeds are unchanged. *)
Theorem make_raw_flags t :
  0 <= c_iflag t < 2 ^ 32 -> 0 <= c_oflag t < 2 ^ 32 -> 0 <= c_lflag t < 2 ^ 32 ->
  List.length (c_cc t) = NCCS ->
  let r := make_raw t in
  (forall n, 0 <= n ->
     Z.testbit (c_iflag r) n =
       Z.testbit (c_iflag t) n &&
       negb (Z.testbit BRKINT n || Z.testbit ICRNL n || Z.testbit INPCK n ||
             Z.testbit ISTRIP n || Z.testbit IXON n) /\
     Z.testbit (c_oflag r) n = Z.testbit (c_oflag t) n && negb (Z.testbit OPOST n) /\
     Z.testbit (c_lflag r) n =
       Z.testbit (c_lflag t) n &&
       negb (Z.testbit ECHO n || Z.testbit ICANON n || Z.testbit IEXTEN n ||
             Z.testbit ISIG n) /\
     Z.testbit (c_cflag r) n = Z.testbit (c_cflag t) n || Z.testbit CS8 n) /\
  nth VMIN (c_cc r) 0 = 0 /\ nth VTIME (c_cc r) 0 = 1 /\
  (forall i, i <> VMIN -> i <> VTIME -> nth i (c_cc r) 0 = nth i (c_cc t) 0) /\
  List.length (c_cc r) = NCCS /\
  c_line r = c_line t /\ c_ispeed r = c_ispeed t /\ c_ospeed r = c_ospeed t.
Proof.
  intros Hi Ho Hl Hcc r. subst r. unfold make_raw.
  cbn [c_iflag c_oflag c_cflag c_lflag c_line c_cc c_ispeed c_ospeed].
  split; [|split; [|split; [|split; [|split]]]].
  - intros n Hn.
    rewrite !testbit_land_u32_lnot by assumption.
    rewrite Z.lor_spec. repeat rewrite Z.lor_spec. repeat rewrite orb_assoc.
    repeat split; reflexivity.
  - rewrite nth_array_set_other by (unfold VMIN, VTIME; lia).
    apply nth_array_set_same. rewrite Hcc. unfold VMIN, NCCS. lia.
  - apply nth_array_set_same. rewrite length_array_set, Hcc. unfold VTIME, NCCS. lia.
  - intros i H1 H2. rewrite !nth_array_set_other by congruence. reflexivity.
  - rewrite !length_array_set. exact Hcc.
  - auto.
Qed.

Lemma make_raw_flags_witness :
  nth VMIN (c_cc (make_raw cooked_tty)) 0 = 0 /\
  Z.testbit (c_lflag (make_raw cooked_tty)) 3 = false.
Proof.
  destruct (make_raw_flags cooked_tty) as (Hbits & H1 & _);
    [vm_compute; split; congruence .. | reflexivity |].
  split; [exact H1|].
  destruct (Hbits 3) as (_ & _ & H3 & _); [lia|]. rewrite H3. reflexivity.
Defined.

Lemma terminate_fatal st : fst (terminate 1 st) = Terminated 1.
Proof.
  unfold terminate.
  destruct (run_atexit_status (handlers st) 1 (set_handlers st [])) as [H|H];
    destruct (run_atexit (handlers st) 1 (set_handlers st [])); simpl in *;
    subst; reflexivity.
Qed.

(** C8 (as stated, refuted): a window of 0 rows and 80 columns is accepted:
    getWindowSize returns 0 and E.screenrows becomes 0. *)
Lemma zero_rows_accepted :
  fst (getWindowSize (fresh (Some (0, 80)) [] [])) = Ret 0 /\
  screenrows (snd (getWindowSize (fresh (Some (0, 80)) [] []))) = 0.
Proof. vm_compute. split; reflexivity. Qed.

(** C8 (amended): getWindowSize returns -1 exactly when the ioctl fails or
    reports 0 columns; otherwise it returns 0 and stores the reported rows
    (which may be 0) and the non-zero columns.  On failure initEditor calls
    die("getWindowSize"): clear/home written to stdout, the diagnostic, and
    exit(1), and a process exiting with 1 terminates with status 1. *)
Theorem window_query_spec st :
  (fst (getWindowSize st) = Ret (-1) <->
     winsize st = None \/ exists row, winsize st = Some (row, 0)) /\
  (forall row col, winsize st = Some (row, col) -> col <> 0 ->
     fst (getWindowSize st) = Ret 0 /\
     screenrows (snd (getWindowSize st)) = row /\
     screencols (snd (getWindowSize st)) = col) /\
  (fst (getWindowSize st) = Ret (-1) ->
     initEditor st = (Exit 1, geometry_fail_state st) /\
     forall st', fst (terminate 1 st') = Terminated 1).
Proof.
  pose proof (initEditor_eq st) as Hi.
  unfold getWindowSize, ioctl_winsz, bind, ret.
  destruct (winsize st) as [[wr wc]|]; simpl.
  - destruct (wc =? 0) eqn:Hc; simpl.
    + apply Z.eqb_eq in Hc. subst wc.
      split; [split; eauto|]. split; [intros ? ? H; inversion H; congruence|].
      intros _. split; [exact Hi|apply terminate_fatal].
    + apply Z.eqb_neq in Hc.
      split; [split; [discriminate|intros [H|[r H]]; inversion H; congruence]|].
      split; [intros ? ? H _; inversion H; subst; auto|discriminate].
  - split; [split; auto|]. split; [discriminate|].
    intros _. split; [exact Hi|apply terminate_fatal].
Qed.

(** C9 (as stated, refuted): a quit (exit(0)) whose restore fails ends the
    process with status 1 after the "tcsetattr" diagnostic: the restore's
    failure goes through die like every other fatal error. *)
Lemma restore_failure_escalates :
  fst (run_process (main 2) (fresh (Some (24, 80)) [true; false] [RByte 17])) = Terminated 1 /\
  In (EPerror "tcsetattr")
    (trace (snd (run_process (main 2) (fresh (Some (24, 80)) [true; false] [RByte 17])))).
Proof. vm_compute. split; [reflexivity|]. repeat (first [left; reflexivity | right]). Qed.

Lemma disableRawMode_fail_exit st rs :
  tcsetattr_res st = false :: rs -> fst (disableRawMode st) = Exit 1.
Proof.
  intros H. unfold disableRawMode, tcsetattr, bind, die, write, perror, exit_.
  rewrite H. reflexivity.
Qed.

(** C9 (amended): when the restore's tcsetattr fails, disableRawMode calls
    die("tcsetattr"): it writes the clear and home sequences, reports the
    diagnostic and calls exit(1).  At the process level (glibc's handling of
    exit called from an atexit handler): if [st] is the state right after a
    successful enableRawMode, so that the next tcsetattr call is the restore
    (the loop makes none), every run that terminates ends with status 1,
    whether main asked for 0 (the quit key) or 1 (die). *)
Theorem restore_failure_dies st rs :
  tcsetattr_res st = false :: rs ->
  disableRawMode st =
    (Exit 1,
     log (log (log (log (set_tcsetattr_res st rs) (ETcsetattr (origin_termios st) false))
                 (EWrite STDOUT_FILENO clear_2j))
            (EWrite STDOUT_FILENO home_H))
         (EPerror "tcsetattr")) /\
  forall fuel st0, enableRawMode st0 = (Ret tt, st) ->
    fst (run_process (main fuel) st0) = Terminated 1 \/
    fst (run_process (main fuel) st0) = Running.
Proof.
  intros H. split.
  { unfold disableRawMode, tcsetattr, bind, die, write, perror, exit_.
    rewrite H. reflexivity. }
  intros fuel st0 E1.
  destruct (enableRawMode_ok st0 st E1) as (Hh & _ & _).
  unfold run_process. rewrite (main_after_enable fuel st0 st E1).
  destruct (quiet_main_rest fuel st) as (Hh2 & _ & _).
  pose proof (keeps_res_main_rest fuel st) as Hr.
  destruct ((initEditor ;; main_loop fuel ;; ret 0) st) as [r2 st2]. simpl in Hh2, Hr.
  rewrite H in Hr. rewrite Hh in Hh2.
  destruct r2 as [code|code|]; [left|left|right; reflexivity]; unfold terminate;
    rewrite Hh2; cbn [run_atexit handler_body];
    pose proof (disableRawMode_fail_exit (set_handlers st2 []) rs Hr) as Hd;
    destruct (disableRawMode (set_handlers st2 [])) as [o st3]; simpl in Hd; subst o;
    destruct (run_atexit_status (handlers st0) 1 st3) as [Hs|Hs];
    destruct (run_atexit (handlers st0) 1 st3); simpl in Hs; subst; reflexivity.
Qed.

Lemma restore_failure_dies_witness :
  tcsetattr_res (snd (enableRawMode (fresh (Some (24, 80)) [true; false] [RByte 17]))) = [false] /\
  fst (disableRawMode (snd (enableRawMode (fresh (Some (24, 80)) [true; false] [RByte 17]))))
    = Exit 1 /\
  (fst (run_process (main 2) (fresh (Some (24, 80)) [true; false] [RByte 17])) = Terminated 1 \/
   fst (run_process (main 2) (fresh (Some (24, 80)) [true; false] [RByte 17])) = Running).
Proof.
  destruct (restore_failure_dies
              (snd (enableRawMode (fresh (Some (24, 80)) [true; false] [RByte 17]))) []
              eq_refl) as [H1 H2].
  split; [reflexivity|]. split; [rewrite H1; reflexivity|].
  apply H2. vm_compute. reflexivity.
Defined.

Lemma reads_log st e : reads (trace (log st e)) = reads (trace st) ++ filter is_read [e].
Proof. unfold reads, log. simpl. apply filter_app. Qed.

Lemma to_char_q b : 0 <= b < 256 -> (to_char b =? 113) = (b =? 113).
Proof.
  intros Hb. unfold to_char. destruct (Z.leb_spec 128 b); [|reflexivity].
  destruct (Z.eqb_spec (b - 256) 113), (Z.eqb_spec b 113); lia.
Qed.

Lemma snap0_read_loop inp :
  forall fuel st, input st = inp -> (List.length inp < fuel)%nat ->
  Forall Snapshot0.byte_ok inp ->
  fst (Snapshot0.read_loop fuel st) = Ret tt /\
  reads (trace (snd (Snapshot0.read_loop fuel st))) =
    reads (trace st) ++ map ERead (Snapshot0.reads_until_stop inp).
Proof.
  induction inp as [|r t IH]; intros fuel st Hin Hlen Hok;
    (destruct fuel as [|f]; [simpl in Hlen; lia|]);
    cbn [Snapshot0.read_loop]; unfold bind, read_stdin, ret; rewrite Hin.
  - cbv beta iota; cbn [fst snd]. cbn [fst snd]. rewrite reads_log. split; reflexivity.
  - inversion Hok as [|? ? Hr Ht]; subst.
    destruct r as [b| |e]; cbv beta iota; cbn [fst snd]; unfold Snapshot0.byte_ok in Hr.
    + rewrite (to_char_q b Hr). cbn [Snapshot0.reads_until_stop].
      destruct (b =? 113) eqn:Hq; cbv beta iota; cbn [fst snd]; unfold negb.
      * cbn [fst snd]. rewrite reads_log. split; reflexivity.
      * destruct (IH f (log (set_input st t) (ERead (RByte b)))) as [H1 H2];
          [reflexivity|simpl in Hlen; lia|exact Ht|].
        cbn [fst snd]. split; [exact H1|]. rewrite H2, reads_log. simpl.
        rewrite <- app_assoc. reflexivity.
    + cbn [fst snd]. rewrite reads_log. split; reflexivity.
    + cbn [fst snd]. rewrite reads_log. split; reflexivity.
Qed.

Lemma snap0_enable st :
  fst (Snapshot0.enableRawMode st) = Ret tt /\
  input (snd (Snapshot0.enableRawMode st)) = input st /\
  reads (trace (snd (Snapshot0.enableRawMode st))) = reads (trace st).
Proof.
  unfold Snapshot0.enableRawMode, tcgetattr_origin, bind, atexit, tcsetattr, ret.
  destruct (tcgetattr_ok st);
    destruct (tcsetattr_res _) as [|[|] rs]; simpl; (split; [reflexivity|]);
    (split; [reflexivity|]); unfold reads; repeat rewrite filter_app;
    simpl; repeat rewrite app_nil_r; reflexivity.
Qed.

Lemma snap0_run_atexit hs :
  forall status st,
  fst (Snapshot0.run_atexit hs status st) = status /\
  reads (trace (snd (Snapshot0.run_atexit hs status st))) = reads (trace st).
Proof.
  induction hs as [|h rest IH]; intros status st; simpl; [auto|].
  destruct h. simpl. unfold Snapshot0.disableRawMode, tcsetattr, bind, ret.
  destruct (tcsetattr_res st) as [|[|] rs]; simpl;
    (match goal with
     | |- context [Snapshot0.run_atexit rest status ?s] =>
         destruct (IH status s) as [H1 H2]
     end;
     split; [exact H1|]; rewrite H2; unfold reads; simpl;
     rewrite filter_app; apply app_nil_r).
Qed.

(** C10: in the earliest snapshot, the loop reads until a read returns 'q' or
    returns no byte (end of input, error), exactly those reads and none after
    them, and the process then terminates with status 0; every other byte
    is followed by another read. *)
Theorem snapshot0_loop_stops st :
  Forall Snapshot0.byte_ok (input st) ->
  exists st', Snapshot0.run_process Snapshot0.main st = (Terminated 0, st') /\
    reads (trace st') = reads (trace st) ++ map ERead (Snapshot0.reads_until_stop (input st)).
Proof.
  intros Hok.
  destruct (snap0_enable st) as (He1 & He2 & He3).
  destruct (Snapshot0.enableRawMode st) as [r1 st1] eqn:E1. simpl in He1, He2, He3. subst r1.
  rewrite <- He2 in Hok.
  destruct (snap0_read_loop (input st1) (S (List.length (input st1))) st1 eq_refl
              (Nat.lt_succ_diag_r _) Hok) as [Hl1 Hl2].
  unfold Snapshot0.run_process, Snapshot0.main, bind. rewrite E1.
  destruct (Snapshot0.read_loop (S (List.length (input st1))) st1) as [r2 st2].
  simpl in Hl1, Hl2. subst r2. unfold ret.
  destruct (snap0_run_atexit (handlers st2) 0 (set_handlers st2 [])) as [H1 H2].
  destruct (Snapshot0.run_atexit (handlers st2) 0 (set_handlers st2 [])) as [s3 st3].
  simpl in H1, H2. subst s3. exists st3. split; [reflexivity|].
  rewrite H2. simpl. rewrite Hl2, He3, He2. reflexivity.
Qed.

Lemma snapshot0_loop_stops_witness :
  Forall Snapshot0.byte_ok [RByte 97; RByte 113; RByte 98] /\
  exists st', Snapshot0.run_process Snapshot0.main (fresh None [] [RByte 97; RByte 113; RByte 98])
                = (Terminated 0, st') /\
    reads (trace st') = [ERead (RByte 97); ERead (RByte 113)].
Proof.
  split; [repeat constructor; simpl; lia|].
  apply (snapshot0_loop_stops (fresh None [] [RByte 97; RByte 113; RByte 98])).
  repeat constructor; simpl; lia.
Defined.

(** * Further properties of the code *)

Lemma readKey_loop_ret inp :
  forall fuel c st, input st = inp -> (List.length inp < fuel)%nat ->
  exists c', fst (readKey_loop fuel c st) = Ret c'.
Proof.
  induction inp as [|r t IH]; intros fuel c st Hin Hlen;
    (destruct fuel as [|f]; [simpl in Hlen; lia|]);
    cbn [readKey_loop]; unfold bind at 1, read_stdin; rewrite Hin.
  - simpl. eauto.
  - destruct r as [b| |e]; simpl.
    + apply IH; [reflexivity|simpl in Hlen; lia].
    + eauto.
    + eauto.
Qed.

Lemma readKey_loop_bytes bs :
  forall fuel c st r rest,
  input st = map RByte bs ++ r :: rest -> not_byte r ->
  (List.length bs < fuel)%nat ->
  readKey_loop fuel c st =
    (Ret (last bs c),
     set_input (add_trace st (map ERead (map RByte bs ++ [r]))) rest).
Proof.
  induction bs as [|b t IH]; intros fuel c st r rest Hin Hr Hlen;
    (destruct fuel as [|f]; [simpl in Hlen; lia|]);
    cbn [readKey_loop]; unfold bind at 1, read_stdin; rewrite Hin.
  - destruct r as [b| |e]; [contradiction| |]; simpl; reflexivity.
  - simpl. unfold bind, ret.
    rewrite (IH f b _ r rest); [|reflexivity|exact Hr|simpl in Hlen; lia].
    f_equal.
    + destruct t as [|b' t']; [reflexivity|].
      f_equal. clear. revert b'. induction t' as [|x t'' IHt]; intros b'; simpl;
        [reflexivity|]. destruct t''; [reflexivity|]. apply (IHt x).
    + unfold set_input, add_trace, log. simpl. rewrite <- app_assoc. reflexivity.
Qed.

Lemma editorRefreshScreen_ret st : fst (editorRefreshScreen st) = Ret tt.
Proof.
  cbv beta iota delta [editorRefreshScreen editorDrawRows bind write].
  set (st1 := log (log st (EWrite STDOUT_FILENO clear_2j)) (EWrite STDOUT_FILENO home_H)).
  destruct (drawRows_loop_eq (Z.to_nat (screenrows st1)) st1) as (H1 & _ & _).
  destruct (drawRows_loop (Z.to_nat (screenrows st1)) st1) as [r st2].
  simpl in H1. subst r. reflexivity.
Qed.

Lemma editorReadKey_ret st : exists c, fst (editorReadKey st) = Ret c.
Proof. unfold editorReadKey. apply (readKey_loop_ret (input st)); auto. Qed.

Lemma editorProcessKeypress_outcome st :
  fst (editorProcessKeypress st) = Ret tt \/ fst (editorProcessKeypress st) = Exit 0.
Proof.
  destruct (editorReadKey_ret st) as [c Hc].
  destruct (editorReadKey st) as [r st1] eqn:E. simpl in Hc. subst r.
  unfold editorProcessKeypress.
  rewrite (bind_Ret editorReadKey (fun c => processKey c) st c st1 E).
  unfold processKey. destruct (to_char c =? CTRL_KEY 113); [right|left]; reflexivity.
Qed.

Lemma enableRawMode_outcome st :
  fst (enableRawMode st) = Ret tt \/ fst (enableRawMode st) = Exit 1.
Proof.
  unfold enableRawMode, tcgetattr_origin, bind, atexit, tcsetattr, die,
    write, perror, exit_, ret.
  destruct (tcgetattr_ok st); simpl; [|auto].
  destruct (tcsetattr_res st) as [|[|] rs]; simpl; auto.
Qed.

(** X1: editorReadKey never fails: whatever standard input delivers
    (bytes, timeouts, read errors), it returns a key; its die("read")
    branch is never taken. *)
Theorem editorReadKey_never_fails st :
  exists c, fst (editorReadKey st) = Ret c.
Proof. exact (editorReadKey_ret st). Qed.

(** X2: editorReadKey reads bytes until a read delivers none, consumes exactly
    those reads, and returns the last byte read (the indeterminate initial
    [c] when the first read already delivers none). *)
Theorem editorReadKey_returns_last_byte st bs r rest :
  input st = map RByte bs ++ r :: rest -> not_byte r ->
  editorReadKey st =
    (Ret (last bs (garbage st)),
     set_input (add_trace st (map ERead (map RByte bs ++ [r]))) rest).
Proof.
  intros Hin Hr. unfold editorReadKey.
  apply readKey_loop_bytes; [exact Hin|exact Hr|].
  rewrite Hin, length_app, length_map. simpl. lia.
Qed.

Lemma editorReadKey_returns_last_byte_witness :
  input (fresh None [] [RByte 97; RByte 98; RTimeout; RByte 17])
    = map RByte [97; 98] ++ RTimeout :: [RByte 17] /\
  fst (editorReadKey (fresh None [] [RByte 97; RByte 98; RTimeout; RByte 17])) = Ret 98.
Proof.
  split; [reflexivity|].
  rewrite (editorReadKey_returns_last_byte _ [97; 98] RTimeout [RByte 17]);
    [reflexivity|reflexivity|exact I].
Defined.

(** X3: the render/input loop only ever leaves through exit(0) (the quit
    key): one bounded run of it either ends in exit(0) or is still running. *)
Theorem main_loop_exits_only_by_quit fuel st :
  fst (main_loop fuel st) = Exit 0 \/ fst (main_loop fuel st) = OutOfFuel.
Proof.
  revert st. induction fuel as [|f IH]; intros st; simpl; [auto|].
  unfold bind. pose proof (editorRefreshScreen_ret st) as H1.
  destruct (editorRefreshScreen st) as [r1 st1]. simpl in H1. subst r1.
  unfold bind. pose proof (editorProcessKeypress_outcome st1) as H2.
  destruct (editorProcessKeypress st1) as [r2 st2]. simpl in H2.
  destruct H2 as [H2|H2]; subst r2; [apply IH|auto].
Qed.

(** X4: main never returns: it ends in exit(0) (quit), in exit(1) (a fatal
    startup error), or is still running. *)
Theorem main_never_returns fuel st :
  fst (main fuel st) = Exit 0 \/ fst (main fuel st) = Exit 1 \/
  fst (main fuel st) = OutOfFuel.
Proof.
  unfold main. unfold bind.
  pose proof (enableRawMode_outcome st) as H1.
  destruct (enableRawMode st) as [r1 st1]. simpl in H1.
  destruct H1 as [H1|H1]; subst r1; [|auto].
  unfold bind. rewrite initEditor_eq.
  destruct (winsize st1) as [[wr wc]|]; [destruct (wc =? 0)|]; simpl; auto.
  unfold bind.
  pose proof (main_loop_exits_only_by_quit fuel (set_dims (log st1 EIoctl) wr wc)) as H2.
  destruct (main_loop fuel (set_dims (log st1 EIoctl) wr wc)) as [r2 st2].
  simpl in H2. destruct H2; subst r2; auto.
Qed.

(** X5: the process exit status is always 0 or 1. *)
Theorem exit_status_0_or_1 fuel st s st' :
  run_process (main fuel) st = (Terminated s, st') -> s = 0 \/ s = 1.
Proof.
  unfold run_process. pose proof (main_never_returns fuel st) as Hm.
  destruct (main fuel st) as [r st1]. simpl in Hm.
  destruct Hm as [Hm|[Hm|Hm]]; subst r; [| |discriminate];
    unfold terminate; intros H;
    match goal with
    | H : (let (_, _) := run_atexit ?hs ?code ?x in _) = _ |- _ =>
        pose proof (run_atexit_status hs code x) as Hs;
        destruct (run_atexit hs code x) as [s3 st3]
    end;
    inversion H; subst; simpl in Hs; lia.
Qed.

Lemma exit_status_0_or_1_witness :
  run_process (main 2) (fresh (Some (24, 80)) [] [RByte 17]) =
    (Terminated 0, snd (run_process (main 2) (fresh (Some (24, 80)) [] [RByte 17]))) /\
  (0 = 0 \/ 0 = 1).
Proof.
  split; [vm_compute; reflexivity|].
  apply (exit_status_0_or_1 2 (fresh (Some (24, 80)) [] [RByte 17]) 0
           (snd (run_process (main 2) (fresh (Some (24, 80)) [] [RByte 17])))).
  vm_compute. reflexivity.
Defined.

Lemma drawRows_loop_state n st :
  drawRows_loop n st = (Ret tt, add_trace st (repeat (EWrite STDOUT_FILENO row_marker) n)).
Proof.
  revert st. induction n as [|k IH]; intros st; simpl.
  - unfold ret, add_trace. rewrite app_nil_r. destruct st; reflexivity.
  - unfold bind, write. rewrite IH. unfold add_trace, log. simpl.
    rewrite <- app_assoc. reflexivity.
Qed.

Lemma bind_Exit {A B} (m : M A) (f : A -> M B) st s st1 :
  m st = (Exit s, st1) -> bind m f st = (Exit s, st1).
Proof. intros H. unfold bind. rewrite H. reflexivity. Qed.

Lemma editorRefreshScreen_state st :
  editorRefreshScreen st =
    (Ret tt, add_trace st ([EWrite STDOUT_FILENO clear_2j; EWrite STDOUT_FILENO home_H]
                           ++ repeat (EWrite STDOUT_FILENO row_marker) (Z.to_nat (screenrows st))
                           ++ [EWrite STDOUT_FILENO home_H])).
Proof.
  cbv beta iota delta [editorRefreshScreen editorDrawRows bind write].
  rewrite drawRows_loop_state. unfold add_trace, log. simpl.
  repeat rewrite <- app_assoc. reflexivity.
Qed.

Lemma enableRawMode_success st :
  tcgetattr_ok st = true -> tcsetattr_res st = [] ->
  enableRawMode st =
    (Ret tt,
     log (set_term (log (set_handlers (log (set_origin st (term st)) (ETcgetattr true))
                                       (HdisableRawMode :: handlers st))
                        (EAtexit HdisableRawMode)) (make_raw (term st)))
         (ETcsetattr (make_raw (term st)) true)).
Proof.
  intros H1 H2.
  unfold enableRawMode, tcgetattr_origin, bind, atexit, tcsetattr, ret.
  rewrite H1. simpl. rewrite H2. reflexivity.
Qed.

Lemma disableRawMode_success st :
  tcsetattr_res st = [] ->
  disableRawMode st =
    (Ret tt, log (set_term st (origin_termios st)) (ETcsetattr (origin_termios st) true)).
Proof.
  intros H. unfold disableRawMode, tcsetattr, bind, ret. rewrite H. reflexivity.
Qed.

(** X8: the end-to-end quit path.  On a fresh process whose tty queries
    succeed and whose window has [col <> 0] columns, a first key of Ctrl-Q
    (followed by a read that delivers no byte) makes the process write one
    full frame, read the key, write ESC[2J and ESC[H, restore the original
    attributes at exit and terminate with status 0; no row marker is written
    after the final clear and home. *)
Theorem quit_on_first_key fuel st row col r rest :
  tcgetattr_ok st = true -> tcsetattr_res st = [] -> handlers st = [] ->
  winsize st = Some (row, col) -> col <> 0 ->
  input st = RByte 17 :: r :: rest -> not_byte r ->
  fst (run_process (main (S fuel)) st) = Terminated 0 /\
  term (snd (run_process (main (S fuel)) st)) = term st /\
  trace (snd (run_process (main (S fuel)) st)) =
    trace st ++
    [ETcgetattr true; EAtexit HdisableRawMode; ETcsetattr (make_raw (term st)) true;
     EIoctl; EWrite STDOUT_FILENO clear_2j; EWrite STDOUT_FILENO home_H]
    ++ repeat (EWrite STDOUT_FILENO row_marker) (Z.to_nat row)
    ++ [EWrite STDOUT_FILENO home_H; ERead (RByte 17); ERead r;
        EWrite STDOUT_FILENO clear_2J; EWrite STDOUT_FILENO home_H;
        ETcsetattr (term st) true].
Proof.
  intros H1 H2 H3 H4 H5 H6 H7.
  pose proof (enableRawMode_success st H1 H2) as E1.
  set (st1 := log _ _) in E1.
  assert (E2 : initEditor st1 = (Ret tt, set_dims (log st1 EIoctl) row col)).
  { rewrite initEditor_eq. replace (winsize st1) with (winsize st) by reflexivity.
    rewrite H4. apply Z.eqb_neq in H5. rewrite H5. reflexivity. }
  set (st2 := set_dims (log st1 EIoctl) row col) in E2.
  pose proof (editorRefreshScreen_state st2) as E3.
  set (st3 := add_trace st2 _) in E3.
  assert (E4 : editorReadKey st3 =
                 (Ret 17, set_input (add_trace st3 (map ERead (map RByte [17] ++ [r]))) rest)).
  { unfold editorReadKey. apply (readKey_loop_bytes [17]); [exact H6|exact H7|].
    replace (input st3) with (input st) by reflexivity. rewrite H6. simpl. lia. }
  set (st4 := set_input _ rest) in E4.
  assert (E5 : editorProcessKeypress st3 =
                 (Exit 0, log (log st4 (EWrite STDOUT_FILENO clear_2J)) (EWrite STDOUT_FILENO home_H))).
  { unfold editorProcessKeypress.
    rewrite (bind_Ret editorReadKey (fun c => processKey c) st3 17 st4 E4). reflexivity. }
  set (st5 := log (log st4 _) _) in E5.
  assert (Hmain : main (S fuel) st = (Exit 0, st5)).
  { rewrite (main_after_enable _ _ _ E1).
    rewrite (bind_Ret _ (fun _ => main_loop (S fuel) ;; ret 0) _ _ _ E2).
    apply bind_Exit. cbn [main_loop].
    rewrite (bind_Ret _ (fun _ => editorProcessKeypress ;; main_loop fuel) _ _ _ E3).
    apply bind_Exit. exact E5. }
  unfold run_process. rewrite Hmain. unfold terminate.
  replace (handlers st5) with [HdisableRawMode]
    by (subst st5 st4 st3 st2 st1; simpl; rewrite H3; reflexivity).
  cbn [run_atexit handler_body].
  rewrite disableRawMode_success
    by (subst st5 st4 st3 st2 st1; simpl; exact H2).
  subst st5 st4 st3 st2 st1. simpl.
  split; [reflexivity|]. split; [reflexivity|].
  repeat rewrite <- app_assoc. apply f_equal. simpl.
  repeat rewrite <- app_assoc. reflexivity.
Qed.

Lemma quit_on_first_key_witness :
  fst (run_process (main 1) (fresh (Some (24, 80)) [] [RByte 17; RTimeout])) = Terminated 0 /\
  term (snd (run_process (main 1) (fresh (Some (24, 80)) [] [RByte 17; RTimeout]))) = cooked_tty /\
  trace (snd (run_process (main 1) (fresh (Some (24, 80)) [] [RByte 17; RTimeout]))) =
    [] ++
    [ETcgetattr true; EAtexit HdisableRawMode; ETcsetattr (make_raw cooked_tty) true;
     EIoctl; EWrite STDOUT_FILENO clear_2j; EWrite STDOUT_FILENO home_H]
    ++ repeat (EWrite STDOUT_FILENO row_marker) (Z.to_nat 24)
    ++ [EWrite STDOUT_FILENO home_H; ERead (RByte 17); ERead RTimeout;
        EWrite STDOUT_FILENO clear_2J; EWrite STDOUT_FILENO home_H;
        ETcsetattr cooked_tty true].
Proof.
  apply (quit_on_first_key 0 (fresh (Some (24, 80)) [] [RByte 17; RTimeout]) 24 80 RTimeout []);
    [reflexivity|reflexivity|reflexivity|reflexivity|discriminate|reflexivity|exact I].
Defined.

(** X6: when tcgetattr fails, enableRawMode dies at once: the process writes
    the clear and home sequences, reports "tcgetattr" and terminates with
    status 1, having registered no handler, made no tcsetattr call and left
    the terminal as it was. *)
Theorem tcgetattr_failure_leaves_terminal fuel st :
  tcgetattr_ok st = false -> handlers st = [] ->
  run_process (main fuel) st =
    (Terminated 1,
     add_trace st [ETcgetattr false; EWrite STDOUT_FILENO clear_2j;
                   EWrite STDOUT_FILENO home_H; EPerror "tcgetattr"]).
Proof.
  intros H1 H2. destruct st. simpl in H1, H2. subst.
  unfold run_process. simpl. unfold terminate, log, add_trace. simpl.
  repeat rewrite <- app_assoc. reflexivity.
Qed.

Lemma tcgetattr_failure_leaves_terminal_witness :
  run_process (main 3) (mk_state cooked_tty zero_termios 0 0 [] false [] (Some (24, 80)) [] 0 []) =
    (Terminated 1,
     add_trace (mk_state cooked_tty zero_termios 0 0 [] false [] (Some (24, 80)) [] 0 [])
       [ETcgetattr false; EWrite STDOUT_FILENO clear_2j;
        EWrite STDOUT_FILENO home_H; EPerror "tcgetattr"]).
Proof. apply tcgetattr_failure_leaves_terminal; reflexivity. Defined.

(** X7: when tcgetattr succeeds but applying the raw attributes fails,
    enableRawMode dies after it has registered the restore: the process
    reports "tcsetattr" and terminates with status 1, and the terminal ends
    with the attributes it had at the start, whether the restore's own
    tcsetattr succeeds or fails. *)
Theorem raw_apply_failure fuel st rs :
  tcgetattr_ok st = true -> tcsetattr_res st = false :: rs -> handlers st = [] ->
  fst (run_process (main fuel) st) = Terminated 1 /\
  term (snd (run_process (main fuel) st)) = term st /\
  In (EPerror "tcsetattr") (trace (snd (run_process (main fuel) st))).
Proof.
  intros H1 H2 H3. destruct st. simpl in H1, H2, H3. subst.
  destruct rs as [|[|] rs]; unfold run_process; simpl;
    (split; [reflexivity|]); (split; [reflexivity|]);
    repeat rewrite <- app_assoc; apply in_or_app; right; simpl; tauto.
Qed.

Lemma raw_apply_failure_witness :
  fst (run_process (main 3) (fresh (Some (24, 80)) [false] [])) = Terminated 1 /\
  term (snd (run_process (main 3) (fresh (Some (24, 80)) [false] []))) = cooked_tty /\
  In (EPerror "tcsetattr") (trace (snd (run_process (main 3) (fresh (Some (24, 80)) [false] [])))).
Proof. apply (raw_apply_failure 3 (fresh (Some (24, 80)) [false] []) []); reflexivity. Defined.

(** X9: while the process is still running (inside its loop), the terminal
    holds the raw attributes made from the ones found at startup, those
    original attributes are kept in E.origin_termios, and the restore is
    registered exactly once: nothing in the loop touches the terminal. *)
Theorem running_stays_raw fuel st :
  fst (main fuel st) = OutOfFuel ->
  term (snd (main fuel st)) = make_raw (term st) /\
  origin_termios (snd (main fuel st)) = term st /\
  handlers (snd (main fuel st)) = HdisableRawMode :: handlers st.
Proof.
  intros H.
  destruct (enableRawMode_outcome st) as [E|E];
    [|unfold main in H; rewrite (bind_Exit enableRawMode _ st 1 (snd (enableRawMode st)))
        in H; [discriminate|destruct (enableRawMode st); simpl in E; subst; reflexivity]].
  destruct (enableRawMode st) as [r1 st1] eqn:E1. simpl in E. subst r1.
  destruct (enableRawMode_ok st st1 E1) as (Hh & Ho & Ht).
  rewrite (main_after_enable fuel st st1 E1).
  destruct (quiet_main_rest fuel st1) as (Hh2 & Ho2 & _).
  rewrite (keeps_term_main_rest fuel st1). repeat split; congruence.
Qed.

Lemma running_stays_raw_witness :
  fst (main 1 (fresh (Some (24, 80)) [] [])) = OutOfFuel /\
  term (snd (main 1 (fresh (Some (24, 80)) [] []))) = make_raw cooked_tty /\
  origin_termios (snd (main 1 (fresh (Some (24, 80)) [] []))) = cooked_tty /\
  handlers (snd (main 1 (fresh (Some (24, 80)) [] []))) = [HdisableRawMode].
Proof.
  split; [vm_compute; reflexivity|].
  apply (running_stays_raw 1 (fresh (Some (24, 80)) [] [])). vm_compute. reflexivity.
Defined.

Lemma snap0_read_loop_state fuel :
  forall st, (List.length (input st) < fuel)%nat ->
  let st' := snd (Snapshot0.read_loop fuel st) in
  fst (Snapshot0.read_loop fuel st) = Ret tt /\
  term st' = term st /\ origin_termios st' = origin_termios st /\
  handlers st' = handlers st /\ tcsetattr_res st' = tcsetattr_res st.
Proof.
  induction fuel as [|f IH]; intros st Hlen; [simpl in Hlen; lia|].
  cbv zeta. cbn [Snapshot0.read_loop]. unfold bind, read_stdin.
  destruct (input st) as [|r t] eqn:Hin; [simpl; auto|].
  destruct r as [b| |e]; [|simpl; auto|simpl; auto].
  destruct (negb (to_char b =? 113)); [|simpl; auto].
  destruct (IH (log (set_input st t) (ERead (RByte b)))) as (H1 & H2 & H3 & H4 & H5);
    [simpl in Hlen |- *; lia|].
  simpl in H2, H3, H4, H5. auto.
Qed.

Lemma quiet_snap0_read_loop fuel : quiet (Snapshot0.read_loop fuel).
Proof. induction fuel; simpl; repeat quiet_step. Qed.

(** X10: in the earliest snapshot every process terminates with status 0,
    whatever tcgetattr and tcsetattr return (all errors are ignored, and the
    loop ends when input does).  For a process that has registered no
    handler yet, the last tcsetattr call is the restore, and it passes the
    attributes tcgetattr captured; when that tcgetattr failed, nothing was
    captured and the restore passes the untouched [origin_termios] (a
    global, so zero-initialised at startup) instead. *)
Theorem snapshot0_final_terminal st :
  handlers st = [] ->
  fst (Snapshot0.run_process Snapshot0.main st) = Terminated 0 /\
  last_tcsetattr (trace (snd (Snapshot0.run_process Snapshot0.main st))) =
    Some (if tcgetattr_ok st then term st else origin_termios st).
Proof.
  intros H2.
  set (o := if tcgetattr_ok st then term st else origin_termios st).
  assert (E1 : fst (Snapshot0.enableRawMode st) = Ret tt /\
               origin_termios (snd (Snapshot0.enableRawMode st)) = o /\
               handlers (snd (Snapshot0.enableRawMode st)) = [HdisableRawMode]).
  { unfold Snapshot0.enableRawMode, tcgetattr_origin, bind, atexit, tcsetattr, ret, o.
    destruct (tcgetattr_ok st); simpl;
      destruct (tcsetattr_res _) as [|[|] rs]; simpl; rewrite H2; auto. }
  destruct E1 as (E1a & E1b & E1c).
  destruct (Snapshot0.enableRawMode st) as [r1 st1] eqn:E1. simpl in *. subst r1.
  destruct (snap0_read_loop_state (S (List.length (input st1))) st1 (Nat.lt_succ_diag_r _))
    as (L1 & _ & L3 & L4 & _).
  unfold Snapshot0.run_process, Snapshot0.main, bind. rewrite E1.
  destruct (Snapshot0.read_loop (S (List.length (input st1))) st1) as [r2 st2].
  simpl in L1, L3, L4. subst r2. unfold ret.
  rewrite L4, E1c. simpl.
  unfold Snapshot0.disableRawMode, tcsetattr, bind, ret. simpl.
  destruct (tcsetattr_res st2) as [|[|] rs]; simpl;
    (split; [reflexivity|]); rewrite last_tcsetattr_app; simpl; congruence.
Qed.

Lemma snapshot0_final_terminal_witness :
  fst (Snapshot0.run_process Snapshot0.main
         (mk_state cooked_tty zero_termios 0 0 [] false [false] None [RByte 113] 0 []))
    = Terminated 0 /\
  last_tcsetattr (trace (snd (Snapshot0.run_process Snapshot0.main
         (mk_state cooked_tty zero_termios 0 0 [] false [false] None [RByte 113] 0 []))))
    = Some zero_termios.
Proof.
  apply (snapshot0_final_terminal
           (mk_state cooked_tty zero_termios 0 0 [] false [false] None [RByte 113] 0 [])).
  reflexivity.
Defined.

(** X11: when the terminal accepts every tcsetattr, each run of the process
    that terminates (quit, startup failure, or a failed window query) leaves
    the terminal with exactly the attributes it had at the start. *)
Theorem terminated_run_restores_terminal fuel st s st' :
  tcsetattr_res st = [] -> handlers st = [] ->
  run_process (main fuel) st = (Terminated s, st') ->
  term st' = term st.
Proof.
  intros H1 H2 Hrun.
  destruct (tcgetattr_ok st) eqn:Hg.
  - pose proof (enableRawMode_success st Hg H1) as E1.
    set (st1 := log _ _) in E1.
    unfold run_process in Hrun. rewrite (main_after_enable fuel st st1 E1) in Hrun.
    destruct (quiet_main_rest fuel st1) as (Hh & Ho & _).
    pose proof (keeps_res_main_rest fuel st1) as Hr.
    destruct ((initEditor ;; main_loop fuel ;; ret 0) st1) as [r2 st2]. simpl in Hh, Ho, Hr.
    rewrite H2 in Hh. rewrite H1 in Hr.
    destruct r2 as [code|code|]; [| |discriminate]; unfold terminate in Hrun;
      rewrite Hh in Hrun; cbn [run_atexit handler_body] in Hrun;
      rewrite disableRawMode_success in Hrun by exact Hr;
      inversion Hrun; subst; simpl; exact Ho.
  - destruct st. simpl in Hg, H2. subst.
    unfold run_process in Hrun. simpl in Hrun. inversion Hrun. reflexivity.
Qed.

Lemma terminated_run_restores_terminal_witness :
  run_process (main 2) (fresh (Some (24, 0)) [] []) =
    (Terminated 1, snd (run_process (main 2) (fresh (Some (24, 0)) [] []))) /\
  term (snd (run_process (main 2) (fresh (Some (24, 0)) [] []))) = cooked_tty.
Proof.
  split; [vm_compute; reflexivity|].
  apply (terminated_run_restores_terminal 2 (fresh (Some (24, 0)) [] []) 1);
    [reflexivity|reflexivity|vm_compute; reflexivity].
Defined.
